(** * The inference gateway of [2_Deploying_ML_Models.ipynb]

    The notebook's service is one FastAPI handler, [predict], over a model and
    a preprocessing pipeline built once at module level:

<<
    model = models.resnet18(pretrained=True)
    model.eval()
    transform = transforms.Compose([
        transforms.Resize(256), transforms.CenterCrop(224),
        transforms.ToTensor(),
        transforms.Normalize(mean=[0.485, 0.456, 0.406], std=[0.229, 0.224, 0.225])])

    @app.post("/predict/")
    async def predict(file: UploadFile = File(...)):
        image_data = await file.read()
        image = Image.open(io.BytesIO(image_data))
        image = transform(image)
        image = image.unsqueeze(0)
        with torch.no_grad():
            output = model(image)
            predicted_index = output.argmax(1).item()
        return JSONResponse(content={"predicted_class": predicted_index})
>>

    The handler is embedded as a computation in a state-and-exception monad:
    the state is the process (the module-level [model]), an exception is a
    Python exception leaving the current frame.  Pillow, torchvision, PyTorch
    and FastAPI are dependencies of the notebook, not part of it.  What they
    compute by arithmetic on sizes and samples (output size of [Resize], crop
    box of [CenterCrop], scaling of [ToTensor], the channel check and formula
    of [Normalize], first-maximum [argmax]) is written out below after their
    documented behaviour; what they compute from file formats, interpolation
    kernels and network weights is a field of [Libraries].

    Tensor entries and scores are the rationals that finite float32 values
    are; the operations on them are float32's own, rounding included, and are
    fields of [Libraries] too.  Infinities and NaN are outside this
    development. *)

From Stdlib Require Import String ZArith QArith List Bool Lia.
Import ListNotations.
Local Open Scope Z_scope.

(** ** Python exceptions and results *)

Inductive exn : Type :=
| UnidentifiedImageError   (* PIL: cannot identify image file *)
| OSError                  (* PIL: truncated or broken image data *)
| ZeroDivisionError
| TypeError
| ValueError
| IndexError
| RuntimeError.

Inductive result (A : Type) : Type :=
| Return (a : A)
| Raise (e : exn).
Arguments Return {A} a.
Arguments Raise {A} e.

Definition result_bind {A B : Type} (r : result A) (k : A -> result B) : result B :=
  match r with
  | Return a => k a
  | Raise e => Raise e
  end.


(** ** Pillow images *)

Definition bytes := list Byte.byte.

(** The modes Pillow's JPEG and PNG decoders hand out with 8-bit samples. *)
Inductive Mode : Type :=
| Mode1      (* "1": bilevel *)
| ModeL      (* "L": greyscale *)
| ModeP      (* "P": palette index *)
| ModeLA     (* "LA": greyscale with alpha *)
| ModeRGB
| ModeRGBA
| ModeCMYK.

(** [len(pic.getbands())] *)
Definition getbands (m : Mode) : nat :=
  match m with
  | Mode1 | ModeL | ModeP => 1
  | ModeLA => 2
  | ModeRGB => 3
  | ModeRGBA | ModeCMYK => 4
  end%nat.

(** An image is its mode, its size and its sample access
    ([getpixel x y band], an 8-bit sample). *)
Record PILImage : Type := {
  mode : Mode;
  width : Z;
  height : Z;
  getpixel : Z -> Z -> nat -> Z
}.

Definition inside (img : PILImage) (x y : Z) : bool :=
  (0 <=? x) && (x <? width img) && (0 <=? y) && (y <? height img).

(** ** Tensors: nested lists, outermost dimension first *)

Definition Tensor1 := list Q.
Definition Tensor2 := list Tensor1.
Definition Tensor3 := list Tensor2.
Definition Tensor4 := list Tensor3.

Definition tabulate {A : Type} (n : nat) (f : nat -> A) : list A :=
  map f (seq 0 n).

Definition shape1 (n : nat) (t : Tensor1) : Prop := length t = n.
Definition shape2 (h w : nat) (t : Tensor2) : Prop :=
  length t = h /\ Forall (shape1 w) t.
Definition shape3 (c h w : nat) (t : Tensor3) : Prop :=
  length t = c /\ Forall (shape2 h w) t.
Definition shape4 (b c h w : nat) (t : Tensor4) : Prop :=
  length t = b /\ Forall (shape3 c h w) t.

(** [t[b][c][y][x]] *)
Definition entry4 (t : Tensor4) (b c y x : nat) : Q :=
  nth x (nth y (nth c (nth b t []) []) []) 0%Q.

(** [tensor.unsqueeze(0)] *)
Definition unsqueeze0 (t : Tensor3) : Tensor4 := [t].

(** ** The dependencies that are not arithmetic *)

Record Libraries : Type := {
  (** [Image.open(io.BytesIO(data))], with the decoding Pillow defers to the
      first pixel access folded in: the image, or the exception. *)
  Image_open : bytes -> result PILImage;
  (** [Image.resize((w, h), BILINEAR)]: the samples of the resized image. *)
  resample : PILImage -> Z -> Z -> Z -> Z -> nat -> Z;
  (** The learnable parameters and the buffers (batch-norm statistics) of
      ResNet-18. *)
  Weights : Type;
  Buffers : Type;
  pretrained_weights : Weights;
  pretrained_buffers : Buffers;
  random_weights : Weights;
  initial_buffers : Buffers;
  (** ResNet-18's forward function on a batch, in evaluation or training
      mode: the score matrix, or the exception. *)
  resnet18_forward : Weights -> Buffers -> bool -> Tensor4 -> result Tensor2;
  (** The update of the batch-norm statistics a forward pass makes in
      training mode. *)
  track_running_stats : Buffers -> Tensor4 -> Buffers;
  (** The statistics a forward pass in training mode leaves behind when it
      raises: those of the batch-norm layers that ran before the exception. *)
  interrupted_running_stats : Buffers -> Tensor4 -> Buffers;
  (** float32 arithmetic on the rationals that finite float32 values are:
      the float32 a Python number becomes in
      [torch.as_tensor(..., dtype=torch.float32)], and the rounded
      subtraction and division of two float32 values. *)
  float32 : Q -> Q;
  float32_sub : Q -> Q -> Q;
  float32_div : Q -> Q -> Q;
  (** Rounding to float32 keeps a number that is at least 0.001 positive. *)
  float32_positive : forall q : Q, (0.001 <= q)%Q -> (0 < float32 q)%Q
}.

(** ** torchvision.transforms *)

Section Transforms.

Variable lib : Libraries.

(** [Image.resize((w, h))] *)
Definition Image_resize (img : PILImage) (w h : Z) : PILImage :=
  {| mode := mode img; width := w; height := h;
     getpixel := resample lib img w h |}.

(** [_compute_resized_output_size((h, w), [size])]: the shorter edge becomes
    [size], the longer one [int(size * long / short)], which for sizes of
    images is the floor of the quotient; returns [(new_h, new_w)]. *)
Definition compute_resized_output_size (h w size : Z) : result (Z * Z) :=
  let '(short, long) := if w <=? h then (w, h) else (h, w) in
  if short =? 0 then Raise ZeroDivisionError
  else
    let new_short := size in
    let new_long := size * long / short in   (* int(size * long / short) *)
    let '(new_w, new_h) :=
      if w <=? h then (new_short, new_long) else (new_long, new_short) in
    Return (new_h, new_w).

(** [transforms.Resize(size)] on a PIL image *)
Definition Resize (size : Z) (img : PILImage) : result PILImage :=
  result_bind (compute_resized_output_size (height img) (width img) size)
    (fun '(new_h, new_w) => Return (Image_resize img new_w new_h)).

(** [F.pad(img, [left, top, right, bottom], fill=0)] *)
Definition pad (img : PILImage) (left top right bottom : Z) : PILImage :=
  {| mode := mode img;
     width := left + width img + right;
     height := top + height img + bottom;
     getpixel := fun x y c =>
       if inside img (x - left) (y - top) then getpixel img (x - left) (y - top) c
       else 0 |}.

(** [F.crop(img, top, left, height, width)]: Pillow fills what lies outside
    the image with zeros. *)
Definition crop (img : PILImage) (top left h w : Z) : PILImage :=
  {| mode := mode img; width := w; height := h;
     getpixel := fun x y c =>
       if inside img (x + left) (y + top) then getpixel img (x + left) (y + top) c
       else 0 |}.

(** [int(round(d / 2.0))]: Python rounds halves to the even neighbour. *)
Definition round_half (d : Z) : Z :=
  let q := d / 2 in
  if d mod 2 =? 0 then q else if Z.even q then q else q + 1.

(** [F.center_crop(img, [crop_height, crop_width])] *)
Definition center_crop (img : PILImage) (crop_height crop_width : Z) : PILImage :=
  let needs_pad := (crop_width >? width img) || (crop_height >? height img) in
  let padded :=
    if needs_pad then
      pad img
        (if crop_width >? width img then (crop_width - width img) / 2 else 0)
        (if crop_height >? height img then (crop_height - height img) / 2 else 0)
        (if crop_width >? width img then (crop_width - width img + 1) / 2 else 0)
        (if crop_height >? height img then (crop_height - height img + 1) / 2 else 0)
    else img in
  if needs_pad && (crop_width =? width padded) && (crop_height =? height padded)
  then padded
  else
    let crop_top := round_half (height padded - crop_height) in
    let crop_left := round_half (width padded - crop_width) in
    crop padded crop_top crop_left crop_height crop_width.

(** [transforms.CenterCrop(size)] *)
Definition CenterCrop (size : Z) (img : PILImage) : result PILImage :=
  Return (center_crop img size size).

(** [transforms.ToTensor()] on an image with 8-bit samples: bands first, then
    rows, then columns, every sample converted to float32 and divided by 255
    in float32, [img.to(torch.float32).div(255)] (a bilevel image is scaled
    to 0/255 before). *)
Definition ToTensor (pic : PILImage) : result Tensor3 :=
  let scale := match mode pic with Mode1 => 255 | _ => 1 end in
  Return
    (tabulate (getbands (mode pic)) (fun c =>
       tabulate (Z.to_nat (height pic)) (fun y =>
         tabulate (Z.to_nat (width pic)) (fun x =>
           float32_div lib
             (inject_Z (scale * getpixel pic (Z.of_nat x) (Z.of_nat y) c)) 255%Q)))).

(** [transforms.Normalize(mean, std)] with one constant per channel (the
    module gives three): the constants become float32 tensors; a zero in
    [std] is refused; then [tensor.sub_(mean).div_(std)] in float32, with
    [mean] and [std] viewed as C x 1 x 1, an in-place broadcast that is
    refused unless the tensor has as many channels as there are constants. *)
Definition Normalize (mean std : list Q) (tensor : Tensor3) : result Tensor3 :=
  let mean := map (float32 lib) mean in
  let std := map (float32 lib) std in
  if existsb (fun s => Qeq_bool s 0) std then Raise ValueError
  else if negb (length tensor =? length mean)%nat then Raise RuntimeError
  else
    Return
      (map (fun '(channel, (m, s)) =>
              map (map (fun v => float32_div lib (float32_sub lib v m) s)) channel)
           (combine tensor (combine mean std))).

(** [transforms.Compose]: the transforms applied from left to right. *)
Definition Compose2 {A B C : Type}
    (f : A -> result B) (g : B -> result C) (a : A) : result C :=
  result_bind (f a) g.

End Transforms.

Notation "f >=> g" := (Compose2 f g) (at level 61, right associativity).

(** ** torch: modules and reductions *)

Section Torch.

Variable lib : Libraries.

(** An [nn.Module] holding ResNet-18: parameters, buffers, and the
    [training] flag that [eval()] clears. *)
Record Module : Type := {
  parameters : Weights lib;
  buffers : Buffers lib;
  training : bool
}.

(** [models.resnet18(pretrained=...)]: a fresh module, in training mode as
    every new [nn.Module]; with [pretrained] the published weights are loaded
    into it, which the second component counts. *)
Definition models_resnet18 (pretrained : bool) (weight_loads : nat) : Module * nat :=
  if pretrained then
    ({| parameters := pretrained_weights lib; buffers := pretrained_buffers lib;
        training := true |}, S weight_loads)
  else
    ({| parameters := random_weights lib; buffers := initial_buffers lib;
        training := true |}, weight_loads).

(** [model.eval()] *)
Definition Module_eval (m : Module) : Module :=
  {| parameters := parameters m; buffers := buffers m; training := false |}.

(** [model(x)] under [torch.no_grad()]: the scores (or the exception), and
    the module afterwards.  No gradient step exists, so the parameters stay;
    in training mode the batch-norm layers update their running statistics,
    those that ran also when a later layer raises. *)
Definition Module_call (m : Module) (x : Tensor4) : result Tensor2 * Module :=
  let output := resnet18_forward lib (parameters m) (buffers m) (training m) x in
  match output with
  | Return _ =>
      (output,
       if training m then
         {| parameters := parameters m;
            buffers := track_running_stats lib (buffers m) x;
            training := true |}
       else m)
  | Raise _ =>
      (output,
       if training m then
         {| parameters := parameters m;
            buffers := interrupted_running_stats lib (buffers m) x;
            training := true |}
       else m)
  end.

(** The scan behind [argmax]: the running maximum is replaced only by a
    strictly larger score, so the first maximal index is kept. *)
Fixpoint argmax_from (best_index : nat) (best : Q) (index : nat) (scores : list Q) : nat :=
  match scores with
  | [] => best_index
  | score :: rest =>
      if Qle_bool score best then argmax_from best_index best (S index) rest
      else argmax_from index score (S index) rest
  end.

(** Arg-max of one row; reducing over an empty dimension raises. *)
Definition argmax_row (scores : Tensor1) : result nat :=
  match scores with
  | [] => Raise IndexError
  | score :: rest => Return (argmax_from 0 score 1 rest)
  end.

(** [output.argmax(1)] on a two-dimensional tensor: one index per row. *)
Fixpoint argmax1 (output : Tensor2) : result (list nat) :=
  match output with
  | [] => Return []
  | row :: rows =>
      result_bind (argmax_row row) (fun i =>
      result_bind (argmax1 rows) (fun indices => Return (i :: indices)))
  end.

(** [tensor.item()]: only a tensor with one element converts to a number. *)
Definition item (indices : list nat) : result Z :=
  match indices with
  | [i] => Return (Z.of_nat i)
  | _ => Raise RuntimeError
  end.

End Torch.

Arguments parameters {lib} m.
Arguments buffers {lib} m.
Arguments training {lib} m.

(** ** FastAPI: uploads and responses *)

(** [UploadFile]: the client's declared file name and content type, and the
    bytes of the multipart field. *)
Record UploadFile : Type := {
  filename : string;
  content_type : string;
  file_bytes : bytes
}.

(** JSON as the service uses it: an object of named scalars. *)
Inductive JSONValue : Type :=
| JInt (n : Z)
| JString (s : string).

Definition JSON : Type := list (string * JSONValue).

Inductive Body : Type :=
| JSONBody (content : JSON)
| TextBody (text : string).

Record Response : Type := {
  status_code : Z;
  body : Body
}.

(** [JSONResponse(content=...)]: status 200 unless told otherwise. *)
Definition JSONResponse (content : JSON) : Response :=
  {| status_code := 200; body := JSONBody content |}.

Definition is_4xx (r : Response) : bool :=
  (400 <=? status_code r) && (status_code r <? 500).

(** The body of a successful answer. *)
Definition class_response (index : Z) : Response :=
  JSONResponse [("predicted_class"%string, JInt index)].

(** ** The module of the service *)

Section Service.

Variable lib : Libraries.

(** The state of the serving process: the module-level [model], and how many
    times pretrained weights have been loaded since the process started. *)
Record Process : Type := {
  model : Module lib;
  weight_loads : nat
}.

(** Handlers run in the process and may raise. *)
Definition M (A : Type) : Type := Process -> result A * Process.

Definition ret {A : Type} (a : A) : M A := fun s => (Return a, s).

Definition bind {A B : Type} (m : M A) (k : A -> M B) : M B :=
  fun s =>
    match m s with
    | (Return a, s') => k a s'
    | (Raise e, s') => (Raise e, s')
    end.

(** A library call that does not touch the process. *)
Definition lift {A : Type} (r : result A) : M A := fun s => (r, s).

Notation "x <- m ;; k" := (bind m (fun x => k))
  (at level 100, m at next level, right associativity).

(** The module body, run once when the server imports the module:
    [model = models.resnet18(pretrained=True)], then [model.eval()]. *)
Definition main : Process :=
  let '(model, loads) := models_resnet18 lib true 0 in
  let model := Module_eval lib model in
  {| model := model; weight_loads := loads |}.

(** The module-level [transform]. *)
Definition mean : list Q := [0.485; 0.456; 0.406]%Q.
Definition std : list Q := [0.229; 0.224; 0.225]%Q.

Definition transform : PILImage -> result Tensor3 :=
  Resize lib 256 >=> CenterCrop 224 >=> ToTensor lib >=> Normalize lib mean std.

(** [await file.read()] *)
Definition UploadFile_read (file : UploadFile) : M bytes :=
  ret (file_bytes file).

(** [model(image)] on the module-level [model]. *)
Definition call_model (image : Tensor4) : M Tensor2 :=
  fun s =>
    let '(output, model') := Module_call lib (model s) image in
    (output, {| model := model'; weight_loads := weight_loads s |}).

(** The handler of [POST /predict/]. *)
Definition predict (file : UploadFile) : M Response :=
  image_data <- UploadFile_read file ;;
  image <- lift (Image_open lib image_data) ;;
  image <- lift (transform image) ;;
  let image := unsqueeze0 image in                (* add batch dimension *)
  (* with torch.no_grad(): nothing is recorded for gradients *)
  output <- call_model image ;;
  predicted_index <- lift (result_bind (argmax1 output) item) ;;
  ret (JSONResponse [("predicted_class"%string, JInt predicted_index)]).

(** The tensor [predict] hands to [model]: its statements up to
    [image = image.unsqueeze(0)]. *)
Definition model_input (file : UploadFile) : M Tensor4 :=
  image_data <- UploadFile_read file ;;
  image <- lift (Image_open lib image_data) ;;
  image <- lift (transform image) ;;
  ret (unsqueeze0 image).

(** What the server answers for a request that reached [predict]: the
    handler's response, or, when an exception leaves the handler, the
    framework's 500 with a plain-text body. *)
Definition internal_server_error : Response :=
  {| status_code := 500; body := TextBody "Internal Server Error" |}.

Definition post_predict (file : UploadFile) (s : Process) : Response * Process :=
  match predict file s with
  | (Return response, s') => (response, s')
  | (Raise _, s') => (internal_server_error, s')
  end.

(** The process after serving a sequence of requests, oldest first. *)
Fixpoint serve (requests : list UploadFile) (s : Process) : Process :=
  match requests with
  | [] => s
  | file :: rest => serve rest (snd (post_predict file s))
  end.

End Service.

Arguments model {lib} p.
Arguments weight_loads {lib} p.

(** ** The test cell of the notebook

<<
    url = 'http://localhost:8000/predict/'
    file_path = 'imgs/cat.jpeg'
    with open(file_path, 'rb') as f:
        files = {'file': (file_path, f, 'image/jpeg')}
        response = requests.post(url, files=files)
    print(response.json())
>>
*)

Definition file_path : string := "imgs/cat.jpeg".

(** [response.json()]: the body parsed as JSON.  A JSON body parses to its
    content; the plain-text body of this server, [Internal Server Error], is
    no JSON document, and requests raises its [JSONDecodeError], a
    [ValueError]. *)
Definition Response_json (response : Response) : result JSON :=
  match body response with
  | JSONBody content => Return content
  | TextBody _ => Raise ValueError
  end.

Section Client.

Variable lib : Libraries.

(** The cell, run against a serving process; [disk] is the client's file
    system ([open] raises [FileNotFoundError], an [OSError], for a missing
    file, before any request is sent).  The result is what the cell prints,
    or the exception that ends it. *)
Definition test_cell (disk : string -> option bytes) (s : Process lib)
    : result JSON * Process lib :=
  match disk file_path with
  | None => (Raise OSError, s)
  | Some f =>
      let files :=
        {| filename := file_path; content_type := "image/jpeg"; file_bytes := f |} in
      let '(response, s') := post_predict lib files s in
      (Response_json response, s')
  end.

End Client.

(** ** Specification vocabulary *)

(** [i] is the first index of a maximal score of [scores]. *)
Definition first_maximum (scores : list Q) (i : nat) : Prop :=
  (i < length scores)%nat /\
  (forall j, (j < length scores)%nat -> (nth j scores 0 <= nth i scores 0)%Q) /\
  (forall j, (j < i)%nat -> (nth j scores 0 < nth i scores 0)%Q).

(** ** A small instance of the dependencies

    Used to run the handler on concrete requests: a decoder for a raw format
    (a tag byte for the mode, one byte each for width and height, then the
    samples row by row), nearest-neighbour resampling, exact arithmetic in
    the place of float32's, and a network whose scores are the top-left entry
    of each channel and which raises before any layer has run. *)

Module Fixture.

Definition sample_at (samples : bytes) (w bands : Z) (x y : Z) (c : nat) : Z :=
  Z.of_N (Byte.to_N (nth (Z.to_nat ((y * w + x) * bands + Z.of_nat c)) samples Byte.x00)).

Definition raw_mode (tag : Byte.byte) : option Mode :=
  match tag with
  | Byte.x4c => Some ModeL      (* "L" *)
  | Byte.x52 => Some ModeRGB    (* "R" *)
  | Byte.x41 => Some ModeRGBA   (* "A" *)
  | _ => None
  end.

Definition raw_open (data : bytes) : result PILImage :=
  match data with
  | tag :: w :: h :: samples =>
      match raw_mode tag with
      | Some m =>
          let w := Z.of_N (Byte.to_N w) in
          let h := Z.of_N (Byte.to_N h) in
          let bands := Z.of_nat (getbands m) in
          if Z.of_nat (length samples) =? w * h * bands then
            Return {| mode := m; width := w; height := h;
                      getpixel := sample_at samples w bands |}
          else Raise OSError
      | None => Raise UnidentifiedImageError
      end
  | _ => Raise UnidentifiedImageError
  end.

Definition nearest (img : PILImage) (w h : Z) (x y : Z) (c : nat) : Z :=
  getpixel img (x * width img / w) (y * height img / h) c.

Definition corner_scores (x : Tensor4) : result Tensor2 :=
  if forallb (fun image => (length image =? 3)%nat) x then
    Return (map (map (fun channel => nth 0 (nth 0 channel []) 0%Q)) x)
  else Raise RuntimeError.

Definition exact_positive (q : Q) (H : (0.001 <= q)%Q) : (0 < q)%Q :=
  Qlt_le_trans 0 0.001 q eq_refl H.

Definition lib : Libraries :=
  {| Image_open := raw_open;
     resample := nearest;
     Weights := unit;
     Buffers := nat;
     pretrained_weights := tt;
     pretrained_buffers := 0%nat;
     random_weights := tt;
     initial_buffers := 0%nat;
     resnet18_forward := fun _ _ _ => corner_scores;
     track_running_stats := fun seen _ => S seen;
     interrupted_running_stats := fun seen _ => seen;
     float32 := fun q => q;
     float32_sub := Qminus;
     float32_div := Qdiv;
     float32_positive := exact_positive |}.

Definition upload (name type : string) (data : bytes) : UploadFile :=
  {| filename := name; content_type := type; file_bytes := data |}.

(** A red pixel, a grey pixel and a half-transparent pixel, each 1 x 1. *)
Definition red_pixel : bytes := [Byte.x52; Byte.x01; Byte.x01; Byte.xff; Byte.x00; Byte.x00].
Definition grey_pixel : bytes := [Byte.x4c; Byte.x01; Byte.x01; Byte.x80].
Definition glass_pixel : bytes :=
  [Byte.x41; Byte.x01; Byte.x01; Byte.x10; Byte.x20; Byte.x30; Byte.x80].
(** A 3 x 1 strip: a red, a green and a blue pixel. *)
Definition strip : bytes :=
  [Byte.x52; Byte.x03; Byte.x01;
   Byte.xff; Byte.x00; Byte.x00;  Byte.x00; Byte.xff; Byte.x00;  Byte.x00; Byte.x00; Byte.xff].

Definition red_image : PILImage :=
  {| mode := ModeRGB; width := 1; height := 1;
     getpixel := sample_at [Byte.xff; Byte.x00; Byte.x00] 1 3 |}.
Definition grey_image : PILImage :=
  {| mode := ModeL; width := 1; height := 1;
     getpixel := sample_at [Byte.x80] 1 1 |}.
Definition glass_image : PILImage :=
  {| mode := ModeRGBA; width := 1; height := 1;
     getpixel := sample_at [Byte.x10; Byte.x20; Byte.x30; Byte.x80] 1 4 |}.
Definition strip_image : PILImage :=
  {| mode := ModeRGB; width := 3; height := 1;
     getpixel := sample_at
       [Byte.xff; Byte.x00; Byte.x00;  Byte.x00; Byte.xff; Byte.x00;
        Byte.x00; Byte.x00; Byte.xff] 3 3 |}.

Definition start : Process lib := main lib.

End Fixture.

(** * Properties *)

(** ** Lists built by [tabulate] *)

Lemma length_tabulate {A : Type} (n : nat) (f : nat -> A) :
  length (tabulate n f) = n.
Proof. unfold tabulate. now rewrite length_map, length_seq. Qed.

Lemma nth_tabulate {A : Type} (n i : nat) (f : nat -> A) (d : A) :
  (i < n)%nat -> nth i (tabulate n f) d = f i.
Proof.
  intros Hi. unfold tabulate.
  rewrite (nth_indep _ d (f 0%nat)) by now rewrite length_map, length_seq.
  rewrite map_nth, seq_nth; auto.
Qed.

Lemma Forall_tabulate {A : Type} (P : A -> Prop) (n : nat) (f : nat -> A) :
  (forall i, (i < n)%nat -> P (f i)) -> Forall P (tabulate n f).
Proof.
  intros H. unfold tabulate. apply Forall_forall. intros a Ha.
  apply in_map_iff in Ha. destruct Ha as [i [<- Hi]].
  apply in_seq in Hi. apply H. lia.
Qed.

(** ** The geometry of [Resize(256)] and [CenterCrop(224)] *)

Lemma round_half_bounds (d : Z) : 0 <= d -> 0 <= round_half d <= d.
Proof.
  intros Hd. unfold round_half.
  pose proof (Z.div_mod d 2 ltac:(lia)) as Hdm.
  pose proof (Z.mod_pos_bound d 2 ltac:(lia)) as Hm.
  destruct (d mod 2 =? 0) eqn:E; [lia|].
  apply Z.eqb_neq in E.
  destruct (Z.even (d / 2)) eqn:Ev; [lia|].
  assert (d / 2 <> 0) by (intros H0; rewrite H0 in Ev; discriminate).
  lia.
Qed.

Lemma gtb_false (a b : Z) : a <= b -> (a >? b) = false.
Proof. intros H. rewrite Z.gtb_ltb. apply Z.ltb_ge. exact H. Qed.

Lemma compute_resized_output_size_ok (h w size : Z) :
  1 <= w -> 1 <= h -> 0 <= size ->
  exists new_h new_w,
    compute_resized_output_size h w size = Return (new_h, new_w) /\
    size <= new_h /\ size <= new_w /\ Z.min new_h new_w = size.
Proof.
  intros Hw Hh Hs. unfold compute_resized_output_size.
  destruct (w <=? h) eqn:E.
  - apply Z.leb_le in E.
    replace (w =? 0) with false by (symmetry; apply Z.eqb_neq; lia).
    exists (size * h / w), size. split; [reflexivity|].
    assert (size <= size * h / w) by (apply Z.div_le_lower_bound; nia).
    lia.
  - apply Z.leb_gt in E.
    replace (h =? 0) with false by (symmetry; apply Z.eqb_neq; lia).
    exists size, (size * w / h). split; [reflexivity|].
    assert (size <= size * w / h) by (apply Z.div_le_lower_bound; nia).
    lia.
Qed.

Section Geometry.

Variable lib : Libraries.

Lemma Resize_ok (size : Z) (img : PILImage) :
  1 <= width img -> 1 <= height img -> 0 <= size ->
  exists img',
    Resize lib size img = Return img' /\
    mode img' = mode img /\
    size <= width img' /\ size <= height img' /\
    Z.min (height img') (width img') = size.
Proof.
  intros Hw Hh Hs. unfold Resize.
  destruct (compute_resized_output_size_ok (height img) (width img) size Hw Hh Hs)
    as (nh & nw & -> & H1 & H2 & H3).
  cbn. eexists. split; [reflexivity|]. cbn. auto.
Qed.

(** On an image at least as large as the crop, [center_crop] pads nothing:
    the result is the crop box, which lies inside the image. *)
Lemma center_crop_inside (img : PILImage) (size : Z) :
  size <= width img -> size <= height img ->
  exists top left,
    center_crop img size size = crop img top left size size /\
    0 <= top /\ top + size <= height img /\
    0 <= left /\ left + size <= width img.
Proof.
  intros Hw Hh. unfold center_crop.
  rewrite !gtb_false by assumption.
  cbn [orb andb].
  pose proof (round_half_bounds (height img - size) ltac:(lia)).
  pose proof (round_half_bounds (width img - size) ltac:(lia)).
  eexists _, _. split; [reflexivity|]. lia.
Qed.

Lemma getpixel_crop_inside (img : PILImage) (top left h w x y : Z) (c : nat) :
  0 <= top -> top + h <= height img -> 0 <= left -> left + w <= width img ->
  0 <= x < w -> 0 <= y < h ->
  getpixel (crop img top left h w) x y c = getpixel img (x + left) (y + top) c.
Proof.
  intros. cbn. unfold inside.
  replace (0 <=? x + left) with true by (symmetry; apply Z.leb_le; lia).
  replace (x + left <? width img) with true by (symmetry; apply Z.ltb_lt; lia).
  replace (0 <=? y + top) with true by (symmetry; apply Z.leb_le; lia).
  replace (y + top <? height img) with true by (symmetry; apply Z.ltb_lt; lia).
  reflexivity.
Qed.

End Geometry.

(** ** [ToTensor] and [Normalize] *)

Lemma nth_map_in {A B : Type} (f : A -> B) (l : list A) (i : nat) (d : A) (d' : B) :
  (i < length l)%nat -> nth i (map f l) d' = f (nth i l d).
Proof.
  intros Hi. rewrite (nth_indep _ d' (f d)) by now rewrite length_map.
  apply map_nth.
Qed.

Section TensorFacts.

Variable lib : Libraries.

Lemma ToTensor_shape (pic : PILImage) :
  exists t, ToTensor lib pic = Return t /\
    shape3 (getbands (mode pic)) (Z.to_nat (height pic)) (Z.to_nat (width pic)) t.
Proof.
  eexists. split; [reflexivity|]. split; [apply length_tabulate|].
  apply Forall_tabulate. intros c Hc. split; [apply length_tabulate|].
  apply Forall_tabulate. intros y Hy. apply length_tabulate.
Qed.

Lemma Normalize_channels (mean std : list Q) (t : Tensor3) :
  length t <> length mean -> exists e, Normalize lib mean std t = Raise e.
Proof.
  intros H. unfold Normalize.
  destruct (existsb _ (map (float32 lib) std)); [now exists ValueError|].
  rewrite length_map.
  apply Nat.eqb_neq in H. rewrite H. now exists RuntimeError.
Qed.

Lemma Normalize_returns (mean std : list Q) (t t' : Tensor3) :
  Normalize lib mean std t = Return t' ->
  length t = length mean /\
  t' = map (fun '(channel, (m, s)) =>
              map (map (fun v => float32_div lib (float32_sub lib v m) s)) channel)
           (combine t (combine (map (float32 lib) mean) (map (float32 lib) std))).
Proof.
  unfold Normalize. destruct (existsb _ (map (float32 lib) std)); [discriminate|].
  rewrite length_map.
  destruct (length t =? length mean)%nat eqn:E; cbn; [|discriminate].
  apply Nat.eqb_eq in E. intros [= <-]. auto.
Qed.

Lemma Normalize_shape (mean std : list Q) (t t' : Tensor3) (c h w : nat) :
  length std = length mean ->
  shape3 c h w t -> Normalize lib mean std t = Return t' -> shape3 c h w t'.
Proof.
  intros Hms [Hc Hch] H. apply Normalize_returns in H. destruct H as [Hlen ->].
  split.
  - rewrite length_map, !length_combine, !length_map. lia.
  - apply Forall_forall. intros ch' Hin.
    apply in_map_iff in Hin. destruct Hin as [[ch [m s]] [<- Hin]].
    apply in_combine_l in Hin.
    rewrite Forall_forall in Hch. destruct (Hch ch Hin) as [Hh Hrows].
    split; [now rewrite length_map|].
    apply Forall_forall. intros row' Hrow'.
    apply in_map_iff in Hrow'. destruct Hrow' as [row [<- Hrow]].
    rewrite Forall_forall in Hrows. unfold shape1. rewrite length_map.
    apply Hrows, Hrow.
Qed.

(** Entry by entry, [Normalize] subtracts the channel's mean and divides by
    the channel's standard deviation, both as float32 and in float32. *)
Lemma Normalize_entry (mean std : list Q) (t t' : Tensor3) (c y x : nat) :
  length std = length mean ->
  Normalize lib mean std t = Return t' ->
  (c < length t)%nat ->
  (x < length (nth y (nth c t []) []))%nat ->
  nth x (nth y (nth c t' []) []) 0%Q =
  float32_div lib
    (float32_sub lib (nth x (nth y (nth c t []) []) 0%Q) (float32 lib (nth c mean 0%Q)))
    (float32 lib (nth c std 0%Q)).
Proof.
  intros Hms H Hc Hx. apply Normalize_returns in H. destruct H as [Hlen ->].
  assert (Hcm : (c < length mean)%nat) by (rewrite <- Hlen; exact Hc).
  assert (Hcs : (c < length std)%nat) by (rewrite Hms; exact Hcm).
  rewrite (nth_map_in _ _ _ ([], (0%Q, 0%Q)))
    by (rewrite !length_combine, !length_map, Hms, Nat.min_id, <- Hlen, Nat.min_id;
        exact Hc).
  rewrite combine_nth
    by (rewrite length_combine, !length_map, Hms, Nat.min_id; exact Hlen).
  rewrite combine_nth by (rewrite !length_map; symmetry; exact Hms).
  cbv beta iota.
  rewrite (nth_map_in (float32 lib) mean c 0%Q 0%Q Hcm).
  rewrite (nth_map_in (float32 lib) std c 0%Q 0%Q Hcs).
  set (g := fun v : Q =>
              float32_div lib (float32_sub lib v (float32 lib (nth c mean 0%Q)))
                (float32 lib (nth c std 0%Q))).
  change (nth y (map (map g) (nth c t [])) [])
    with (nth y (map (map g) (nth c t [])) (map g [])).
  rewrite map_nth.
  now rewrite (nth_map_in _ _ _ 0%Q).
Qed.

Lemma ToTensor_entry (pic : PILImage) (t : Tensor3) (c y x : nat) :
  ToTensor lib pic = Return t ->
  (c < getbands (mode pic))%nat ->
  (y < Z.to_nat (height pic))%nat ->
  (x < Z.to_nat (width pic))%nat ->
  nth x (nth y (nth c t []) []) 0%Q =
  float32_div lib
    (inject_Z ((match mode pic with Mode1 => 255 | _ => 1 end)
               * getpixel pic (Z.of_nat x) (Z.of_nat y) c)) 255%Q.
Proof.
  intros [= <-] Hc Hy Hx.
  now rewrite !nth_tabulate.
Qed.

(** None of the module's [std] constants becomes zero in float32. *)
Lemma std_float32_nonzero :
  existsb (fun s => Qeq_bool s 0) (map (float32 lib) std) = false.
Proof.
  assert (H : forall q : Q, (0.001 <= q)%Q -> Qeq_bool (float32 lib q) 0 = false).
  { intros q Hq. pose proof (float32_positive lib q Hq) as Hpos.
    destruct (Qeq_bool (float32 lib q) 0) eqn:E; [|reflexivity].
    apply Qeq_bool_iff in E. rewrite E in Hpos. discriminate Hpos. }
  cbn [std map existsb].
  rewrite !H by (unfold Qle; cbn; lia).
  reflexivity.
Qed.

End TensorFacts.

Lemma three_bands (m : Mode) : getbands m = 3%nat -> m = ModeRGB.
Proof. destruct m; cbn; intros H; try discriminate; reflexivity. Qed.

Lemma mode_center_crop (img : PILImage) (h w : Z) :
  mode (center_crop img h w) = mode img.
Proof.
  unfold center_crop.
  destruct ((w >? width img) || (h >? height img)); cbn [andb].
  - match goal with |- context [if ?b then _ else _] => destruct b end; reflexivity.
  - reflexivity.
Qed.

Section TransformFacts.

Variable lib : Libraries.

Lemma mode_Resize (size : Z) (img img' : PILImage) :
  Resize lib size img = Return img' -> mode img' = mode img.
Proof.
  unfold Resize. destruct (compute_resized_output_size _ _ _) as [[nh nw]|e]; cbn.
  - now intros [= <-].
  - discriminate.
Qed.

(** [transform] returns a tensor only for an image with three bands. *)
Lemma transform_returns_three_bands (img : PILImage) (t : Tensor3) :
  transform lib img = Return t -> getbands (mode img) = 3%nat.
Proof.
  unfold transform, Compose2, CenterCrop.
  destruct (Resize lib 256 img) as [resized|e] eqn:HR; cbn [result_bind]; [|discriminate].
  destruct (ToTensor_shape lib (center_crop resized 224 224)) as (t0 & -> & [Hlen _]).
  cbn [result_bind]. intros H. apply Normalize_returns in H. destruct H as [H _].
  rewrite mode_center_crop, (mode_Resize _ _ _ HR) in Hlen.
  cbn in H. lia.
Qed.

Lemma transform_other_bands (img : PILImage) :
  getbands (mode img) <> 3%nat -> exists e, transform lib img = Raise e.
Proof.
  intros H. destruct (transform lib img) as [t|e] eqn:E.
  - apply transform_returns_three_bands in E. contradiction.
  - now exists e.
Qed.

(** The whole pipeline on an image of positive size with three bands: it
    returns a 3 x 224 x 224 tensor whose entries are the normalized samples
    of a 224 x 224 box inside the resized image. *)
Lemma transform_ok (img : PILImage) :
  1 <= width img -> 1 <= height img -> getbands (mode img) = 3%nat ->
  exists resized top left t,
    Resize lib 256 img = Return resized /\
    Z.min (height resized) (width resized) = 256 /\
    center_crop resized 224 224 = crop resized top left 224 224 /\
    0 <= top /\ top + 224 <= height resized /\
    0 <= left /\ left + 224 <= width resized /\
    transform lib img = Return t /\
    shape3 3 224 224 t /\
    forall c y x, (c < 3)%nat -> (y < 224)%nat -> (x < 224)%nat ->
      nth x (nth y (nth c t []) []) 0%Q =
      float32_div lib
        (float32_sub lib
           (float32_div lib
              (inject_Z (getpixel resized (Z.of_nat x + left) (Z.of_nat y + top) c))
              255%Q)
           (float32 lib (nth c mean 0%Q)))
        (float32 lib (nth c std 0%Q)).
Proof.
  intros Hw Hh Hb.
  destruct (Resize_ok lib 256 img Hw Hh ltac:(lia)) as (resized & HR & Hm & Hrw & Hrh & Hmin).
  destruct (center_crop_inside resized 224 ltac:(lia) ltac:(lia))
    as (top & left & Hcc & Ht0 & Ht1 & Hl0 & Hl1).
  assert (Hmode : mode (crop resized top left 224 224) = ModeRGB)
    by (cbn; rewrite Hm; now apply three_bands).
  destruct (ToTensor_shape lib (crop resized top left 224 224)) as (t0 & HT & Hshape).
  rewrite Hmode in Hshape. cbn [getbands width height crop] in Hshape.
  change (Z.to_nat 224) with 224%nat in Hshape.
  assert (HN : exists t, Normalize lib mean std t0 = Return t).
  { unfold Normalize. rewrite std_float32_nonzero, length_map.
    replace (length t0 =? length mean)%nat with true
      by (destruct Hshape as [-> _]; reflexivity).
    eexists; reflexivity. }
  destruct HN as [t HN].
  exists resized, top, left, t.
  repeat split; try assumption; try lia.
  - unfold transform, Compose2, CenterCrop. rewrite HR. cbn [result_bind].
    rewrite Hcc, HT. cbn [result_bind]. exact HN.
  - destruct (Normalize_shape lib mean std t0 t 3 224 224 eq_refl Hshape HN) as [H _];
      exact H.
  - destruct (Normalize_shape lib mean std t0 t 3 224 224 eq_refl Hshape HN) as [_ H];
      exact H.
  - intros c y x Hc Hy Hx.
    assert (Hrow : length (nth y (nth c t0 []) []) = 224%nat).
    { destruct Hshape as [Hlen Hch]. rewrite Forall_forall in Hch.
      destruct (Hch (nth c t0 [])) as [Hrows Hall]; [apply nth_In; lia|].
      rewrite Forall_forall in Hall. apply Hall, nth_In. lia. }
    rewrite (Normalize_entry lib mean std t0 t c y x eq_refl HN)
      by (destruct Hshape as [Hlen _]; lia).
    rewrite (ToTensor_entry lib _ t0 c y x HT)
      by (rewrite ?Hmode; cbn [getbands crop width height]; lia).
    rewrite Hmode, Z.mul_1_l.
    rewrite getpixel_crop_inside by lia.
    reflexivity.
Qed.

End TransformFacts.

(** ** [argmax]: the first maximal index *)

Lemma argmax_from_spec (rest seen : list Q) (best_index : nat) :
  first_maximum seen best_index ->
  first_maximum (seen ++ rest)
    (argmax_from best_index (nth best_index seen 0%Q) (length seen) rest).
Proof.
  revert seen best_index.
  induction rest as [|score rest IH]; intros seen best_index Hbest.
  - cbn. now rewrite app_nil_r.
  - destruct Hbest as (Hlt & Hmax & Hfirst).
    replace (seen ++ score :: rest) with ((seen ++ [score]) ++ rest)
      by now rewrite <- app_assoc.
    cbn [argmax_from].
    replace (S (length seen)) with (length (seen ++ [score]))
      by (rewrite length_app; cbn; lia).
    destruct (Qle_bool score (nth best_index seen 0%Q)) eqn:E.
    + apply Qle_bool_iff in E.
      pose proof (IH (seen ++ [score]) best_index) as IH'.
      rewrite (app_nth1 seen [score] 0%Q Hlt) in IH'.
      apply IH'. split; [rewrite length_app; lia|]. split.
      * intros j Hj. rewrite length_app in Hj. cbn in Hj.
        rewrite (app_nth1 seen [score] 0%Q Hlt).
        destruct (Nat.lt_ge_cases j (length seen)) as [Hin|Hout].
        -- rewrite app_nth1 by exact Hin. now apply Hmax.
        -- replace j with (length seen) by lia.
           rewrite nth_middle. exact E.
      * intros j Hj.
        rewrite (app_nth1 seen [score] 0%Q Hlt), app_nth1 by lia.
        now apply Hfirst.
    + assert (Hgt : (nth best_index seen 0 < score)%Q).
      { apply Qnot_le_lt. intros H. apply Qle_bool_iff in H. congruence. }
      pose proof (IH (seen ++ [score]) (length seen)) as IH'.
      rewrite nth_middle in IH'.
      apply IH'. split; [rewrite length_app; cbn; lia|].
      rewrite nth_middle. split.
      * intros j Hj. rewrite length_app in Hj. cbn in Hj.
        destruct (Nat.lt_ge_cases j (length seen)) as [Hin|Hout].
        -- rewrite app_nth1 by exact Hin.
           apply Qle_trans with (nth best_index seen 0%Q); [now apply Hmax|].
           now apply Qlt_le_weak.
        -- replace j with (length seen) by lia.
           rewrite nth_middle. apply Qle_refl.
      * intros j Hj. rewrite app_nth1 by exact Hj.
        apply Qle_lt_trans with (nth best_index seen 0%Q); [now apply Hmax|exact Hgt].
Qed.

Lemma argmax_row_spec (scores : list Q) (i : nat) :
  argmax_row scores = Return i -> first_maximum scores i.
Proof.
  destruct scores as [|score rest]; cbn; [discriminate|].
  intros [= <-].
  apply (argmax_from_spec rest [score] 0).
  split; [cbn; lia|]. split.
  - intros j Hj. cbn in Hj. replace j with 0%nat by lia. apply Qle_refl.
  - intros j Hj. lia.
Qed.

Lemma argmax_row_nonempty (scores : list Q) :
  scores <> [] -> exists i, argmax_row scores = Return i.
Proof. destruct scores; [congruence|]. intros _. eexists; reflexivity. Qed.

(** [output.argmax(1).item()] returns exactly when the output has one row,
    and then the arg-max of that row. *)
Lemma argmax1_item_returns (output : Tensor2) (index : Z) :
  result_bind (argmax1 output) item = Return index ->
  exists scores i,
    output = [scores] /\ argmax_row scores = Return i /\ index = Z.of_nat i.
Proof.
  destruct output as [|scores rows]; cbn; [discriminate|].
  destruct (argmax_row scores) as [i|e] eqn:Hi; cbn [result_bind]; [|discriminate].
  destruct rows as [|row rows]; cbn.
  - intros [= <-]. now exists scores, i.
  - destruct (argmax_row row) as [i'|e]; cbn [result_bind]; [|discriminate].
    destruct (argmax1 rows) as [l|e]; cbn; discriminate.
Qed.

(** ** The handler, step by step *)

Section HandlerFacts.

Variable lib : Libraries.

Lemma predict_decode_raises (file : UploadFile) (s : Process lib) (e : exn) :
  Image_open lib (file_bytes file) = Raise e ->
  predict lib file s = (Raise e, s).
Proof. intros H. unfold predict, bind, UploadFile_read, ret, lift. now rewrite H. Qed.

Lemma predict_transform_raises (file : UploadFile) (s : Process lib)
    (img : PILImage) (e : exn) :
  Image_open lib (file_bytes file) = Return img ->
  transform lib img = Raise e ->
  predict lib file s = (Raise e, s).
Proof.
  intros H1 H2. unfold predict, bind, UploadFile_read, ret, lift. now rewrite H1, H2.
Qed.

(** Past [transform], the handler is the model call followed by the
    arg-max. *)
Lemma predict_inference (file : UploadFile) (s : Process lib)
    (img : PILImage) (t : Tensor3) :
  Image_open lib (file_bytes file) = Return img ->
  transform lib img = Return t ->
  predict lib file s =
  match call_model lib (unsqueeze0 t) s with
  | (Return output, s') =>
      match result_bind (argmax1 output) item with
      | Return index => (Return (class_response index), s')
      | Raise e => (Raise e, s')
      end
  | (Raise e, s') => (Raise e, s')
  end.
Proof.
  intros H1 H2. unfold predict, bind, UploadFile_read, ret, lift. rewrite H1, H2.
  destruct (call_model lib (unsqueeze0 t) s) as [[output|e] s']; [|reflexivity].
  destruct (result_bind (argmax1 output) item); reflexivity.
Qed.

Lemma model_input_returns (file : UploadFile) (s s' : Process lib) (image : Tensor4) :
  model_input lib file s = (Return image, s') ->
  s' = s /\
  exists img t,
    Image_open lib (file_bytes file) = Return img /\
    transform lib img = Return t /\ image = unsqueeze0 t.
Proof.
  unfold model_input, bind, UploadFile_read, ret, lift.
  destruct (Image_open lib (file_bytes file)) as [img|e]; [|discriminate].
  destruct (transform lib img) as [t|e] eqn:Ht; [|discriminate].
  intros [= <- <-]. split; [reflexivity|]. now exists img, t.
Qed.

Lemma model_input_of_transform (file : UploadFile) (s : Process lib)
    (img : PILImage) (t : Tensor3) :
  Image_open lib (file_bytes file) = Return img ->
  transform lib img = Return t ->
  model_input lib file s = (Return (unsqueeze0 t), s).
Proof.
  intros H1 H2. unfold model_input, bind, UploadFile_read, ret, lift. now rewrite H1, H2.
Qed.

(** A response comes only out of the last statement of the handler. *)
Lemma predict_returns (file : UploadFile) (s s' : Process lib) (response : Response) :
  predict lib file s = (Return response, s') ->
  exists img t output index,
    Image_open lib (file_bytes file) = Return img /\
    transform lib img = Return t /\
    call_model lib (unsqueeze0 t) s = (Return output, s') /\
    result_bind (argmax1 output) item = Return index /\
    response = class_response index.
Proof.
  destruct (Image_open lib (file_bytes file)) as [img|e] eqn:H1.
  2:{ rewrite (predict_decode_raises _ _ _ H1). discriminate. }
  destruct (transform lib img) as [t|e] eqn:H2.
  2:{ rewrite (predict_transform_raises _ _ _ _ H1 H2). discriminate. }
  rewrite (predict_inference _ _ _ _ H1 H2).
  destruct (call_model lib (unsqueeze0 t) s) as [[output|e] s1] eqn:H3; [|discriminate].
  destruct (result_bind (argmax1 output) item) as [index|e] eqn:H4; [|discriminate].
  intros [= <- <-]. now exists img, t, output, index.
Qed.

(** The handler reads the upload's bytes and nothing else of it. *)
Lemma predict_bytes_only (file1 file2 : UploadFile) (s : Process lib) :
  file_bytes file1 = file_bytes file2 ->
  predict lib file1 s = predict lib file2 s.
Proof. intros H. unfold predict, bind, UploadFile_read, ret. now rewrite H. Qed.

Lemma model_input_stateless (file1 file2 : UploadFile) (s1 s2 : Process lib) :
  file_bytes file1 = file_bytes file2 ->
  fst (model_input lib file1 s1) = fst (model_input lib file2 s2).
Proof.
  intros H. unfold model_input, bind, UploadFile_read, ret, lift. rewrite H.
  destruct (Image_open lib (file_bytes file2)) as [img|e]; [|reflexivity].
  destruct (transform lib img); reflexivity.
Qed.

(** ** The process is a frame of the handler *)

Lemma call_model_eval (image : Tensor4) (s : Process lib) :
  training (model s) = false ->
  call_model lib image s =
  (resnet18_forward lib (parameters (model s)) (buffers (model s)) false image, s).
Proof.
  intros H. unfold call_model, Module_call. rewrite H.
  destruct s as [m n]; cbn.
  destruct (resnet18_forward lib (parameters m) (buffers m) false image); reflexivity.
Qed.

Lemma predict_frame (file : UploadFile) (s : Process lib) :
  training (model s) = false -> snd (predict lib file s) = s.
Proof.
  intros H.
  destruct (Image_open lib (file_bytes file)) as [img|e] eqn:H1.
  2:{ now rewrite (predict_decode_raises _ _ _ H1). }
  destruct (transform lib img) as [t|e] eqn:H2.
  2:{ now rewrite (predict_transform_raises _ _ _ _ H1 H2). }
  rewrite (predict_inference _ _ _ _ H1 H2), (call_model_eval _ _ H).
  destruct (resnet18_forward _ _ _ _ _) as [output|e]; [|reflexivity].
  destruct (result_bind (argmax1 output) item); reflexivity.
Qed.

Lemma post_predict_frame (file : UploadFile) (s : Process lib) :
  training (model s) = false -> snd (post_predict lib file s) = s.
Proof.
  intros H. unfold post_predict.
  pose proof (predict_frame file s H) as Hs.
  destruct (predict lib file s) as [[r|e] s']; exact Hs.
Qed.

Lemma serve_frame (requests : list UploadFile) (s : Process lib) :
  training (model s) = false -> serve lib requests s = s.
Proof.
  intros H. induction requests as [|file rest IH]; [reflexivity|].
  cbn [serve]. now rewrite post_predict_frame.
Qed.

Lemma main_eval : training (model (main lib)) = false.
Proof. reflexivity. Qed.

Lemma post_predict_of_predict (file1 file2 : UploadFile) (s1 s2 : Process lib) :
  fst (predict lib file1 s1) = fst (predict lib file2 s2) ->
  fst (post_predict lib file1 s1) = fst (post_predict lib file2 s2).
Proof.
  unfold post_predict.
  destruct (predict lib file1 s1) as [[r1|e1] s1'],
           (predict lib file2 s2) as [[r2|e2] s2']; cbn;
    intros H; inversion H; reflexivity.
Qed.

Lemma transform_positive (img : PILImage) (t : Tensor3) :
  0 <= width img -> 0 <= height img ->
  transform lib img = Return t -> 1 <= width img /\ 1 <= height img.
Proof.
  intros Hw Hh. unfold transform, Compose2, Resize, compute_resized_output_size.
  destruct (width img <=? height img) eqn:E.
  - apply Z.leb_le in E. destruct (width img =? 0) eqn:E0; [discriminate|].
    apply Z.eqb_neq in E0. intros _. lia.
  - apply Z.leb_gt in E. destruct (height img =? 0) eqn:E0; [discriminate|].
    apply Z.eqb_neq in E0. intros _. lia.
Qed.

End HandlerFacts.

Lemma predict_through_model_input (lib : Libraries) (file : UploadFile) (s : Process lib) :
  predict lib file s =
  bind lib (model_input lib file) (fun image =>
    bind lib (call_model lib image) (fun output =>
      bind lib (lift lib (result_bind (argmax1 output) item)) (fun predicted_index =>
        ret lib (class_response predicted_index)))) s.
Proof.
  unfold predict, model_input, bind, UploadFile_read, ret, lift.
  destruct (Image_open lib (file_bytes file)) as [img|e]; [|reflexivity].
  destruct (transform lib img) as [t|e]; reflexivity.
Qed.

(** * The claims *)

(** ** C1: a payload that does not decode *)

(** C1, as the code has it: when [Image.open] raises on the payload (the
    empty payload, bytes that are no image), the exception leaves [predict]
    as it is: the handler returns no response of its own, the process is
    unchanged, and the framework answers 500, which is no 4xx. *)
Theorem predict_decode_error_escapes
    (lib : Libraries) (file : UploadFile) (s : Process lib) (e : exn) :
  Image_open lib (file_bytes file) = Raise e ->
  predict lib file s = (Raise e, s) /\
  post_predict lib file s = (internal_server_error, s) /\
  is_4xx (fst (post_predict lib file s)) = false.
Proof.
  intros H. pose proof (predict_decode_raises lib file s e H) as Hp.
  unfold post_predict. rewrite Hp. repeat split.
Qed.

Lemma predict_decode_error_escapes_witness :
  predict Fixture.lib (Fixture.upload "notes.txt" "text/plain" [Byte.x68; Byte.x69])
    Fixture.start = (Raise UnidentifiedImageError, Fixture.start).
Proof.
  apply (predict_decode_error_escapes Fixture.lib
           (Fixture.upload "notes.txt" "text/plain" [Byte.x68; Byte.x69])
           Fixture.start UnidentifiedImageError).
  reflexivity.
Defined.

(** C1 fails on the empty payload: the decoder rejects it, [predict] returns
    no response at all, and the status the client sees is not a 4xx. *)
Lemma empty_payload_is_no_client_error :
  Image_open Fixture.lib [] = Raise UnidentifiedImageError /\
  ~ (exists response s',
       predict Fixture.lib (Fixture.upload "empty.jpg" "image/jpeg" []) Fixture.start
       = (Return response, s')) /\
  fst (post_predict Fixture.lib (Fixture.upload "empty.jpg" "image/jpeg" []) Fixture.start)
  = internal_server_error /\
  is_4xx internal_server_error = false.
Proof.
  split; [reflexivity|]. split; [|split; reflexivity].
  intros (response & s' & H). discriminate H.
Qed.

(** ** C2: a very small image *)

(** C2, as the code has it: an image of positive size, however small, is
    never rejected for its size.  [Resize(256)] brings its shorter edge to
    256, [CenterCrop(224)] cuts a 224 x 224 box that lies inside the resized
    image (nothing is padded, no crop is empty), and when the image has three
    bands the handler goes on to the model with a 3 x 224 x 224 tensor. *)
Theorem small_image_is_upsampled
    (lib : Libraries) (file : UploadFile) (s : Process lib) (img : PILImage) :
  Image_open lib (file_bytes file) = Return img ->
  1 <= width img -> 1 <= height img ->
  (exists resized top left,
     Resize lib 256 img = Return resized /\
     Z.min (height resized) (width resized) = 256 /\
     CenterCrop 224 resized = Return (crop resized top left 224 224) /\
     0 <= top /\ top + 224 <= height resized /\
     0 <= left /\ left + 224 <= width resized) /\
  (getbands (mode img) = 3%nat ->
   exists t, shape3 3 224 224 t /\
             model_input lib file s = (Return (unsqueeze0 t), s)).
Proof.
  intros Hopen Hw Hh. split.
  - destruct (Resize_ok lib 256 img Hw Hh ltac:(lia)) as (resized & HR & _ & Hrw & Hrh & Hmin).
    destruct (center_crop_inside resized 224 ltac:(lia) ltac:(lia))
      as (top & left & Hcc & Hbox).
    exists resized, top, left. unfold CenterCrop. rewrite Hcc. tauto.
  - intros Hb.
    destruct (transform_ok lib img Hw Hh Hb)
      as (resized & top & left & t & _ & _ & _ & _ & _ & _ & _ & Ht & Hshape & _).
    exists t. split; [exact Hshape|].
    now apply model_input_of_transform with img.
Qed.

Lemma small_image_is_upsampled_witness :
  exists t, shape3 3 224 224 t /\
    model_input Fixture.lib (Fixture.upload "dot.png" "image/png" Fixture.red_pixel)
      Fixture.start = (Return (unsqueeze0 t), Fixture.start).
Proof.
  refine (proj2 (small_image_is_upsampled Fixture.lib
                   (Fixture.upload "dot.png" "image/png" Fixture.red_pixel)
                   Fixture.start Fixture.red_image _ _ _) _).
  - reflexivity.
  - cbn; lia.
  - cbn; lia.
  - reflexivity.
Defined.

(** C2 fails on a 1 x 1 image: it is decoded, upsampled to 256 x 256, and
    classified; no error is returned. *)
Lemma one_pixel_image_is_classified :
  Image_open Fixture.lib Fixture.red_pixel = Return Fixture.red_image /\
  width Fixture.red_image = 1 /\ height Fixture.red_image = 1 /\
  (exists resized, Resize Fixture.lib 256 Fixture.red_image = Return resized /\
                   width resized = 256 /\ height resized = 256) /\
  fst (predict Fixture.lib (Fixture.upload "dot.png" "image/png" Fixture.red_pixel)
         Fixture.start) = Return (class_response 0).
Proof.
  split; [reflexivity|]. split; [reflexivity|]. split; [reflexivity|]. split.
  - eexists. split; [reflexivity|]. split; reflexivity.
  - lazy. reflexivity.
Qed.

(** ** C3: determinism *)

(** C3: two requests with the same bytes get the same outcome (the same
    class index, or the same exception), whatever was served before each of
    them since the process started; and the tensor handed to the model is a
    function of the bytes alone, independent of the process state. *)
Theorem predict_is_deterministic
    (lib : Libraries) (file1 file2 : UploadFile) (before1 before2 : list UploadFile) :
  file_bytes file1 = file_bytes file2 ->
  fst (predict lib file1 (serve lib before1 (main lib))) =
  fst (predict lib file2 (serve lib before2 (main lib))) /\
  fst (post_predict lib file1 (serve lib before1 (main lib))) =
  fst (post_predict lib file2 (serve lib before2 (main lib))) /\
  (forall s1 s2 : Process lib,
     fst (model_input lib file1 s1) = fst (model_input lib file2 s2)).
Proof.
  intros Hbytes.
  rewrite !(serve_frame lib _ (main lib) (main_eval lib)).
  assert (H : fst (predict lib file1 (main lib)) = fst (predict lib file2 (main lib)))
    by now rewrite (predict_bytes_only lib file1 file2 (main lib) Hbytes).
  split; [exact H|]. split.
  - now apply post_predict_of_predict.
  - intros s1 s2. now apply model_input_stateless.
Qed.

Lemma predict_is_deterministic_witness :
  fst (predict Fixture.lib (Fixture.upload "a.png" "image/png" Fixture.strip)
         (serve Fixture.lib [Fixture.upload "b.png" "image/png" Fixture.grey_pixel]
            Fixture.start)) =
  fst (predict Fixture.lib (Fixture.upload "c.png" "image/png" Fixture.strip)
         (serve Fixture.lib [] Fixture.start)).
Proof.
  refine (proj1 (predict_is_deterministic Fixture.lib
                   (Fixture.upload "a.png" "image/png" Fixture.strip)
                   (Fixture.upload "c.png" "image/png" Fixture.strip)
                   [Fixture.upload "b.png" "image/png" Fixture.grey_pixel] [] _)).
  reflexivity.
Defined.

(** ** C4: arg-max with ties to the lowest index *)

(** C4: whenever [predict] answers, the model returned one row of scores for
    the tensor it was given, and the class index of the answer is the first
    maximal index of that row: no score is larger than the selected one, and
    every score before it is strictly smaller. *)
Theorem predict_selects_first_maximum
    (lib : Libraries) (file : UploadFile) (s s' : Process lib) (response : Response) :
  predict lib file s = (Return response, s') ->
  exists image scores i,
    fst (model_input lib file s) = Return image /\
    fst (Module_call lib (model s) image) = Return [scores] /\
    response = class_response (Z.of_nat i) /\
    (i < length scores)%nat /\
    (forall j, (j < length scores)%nat -> (nth j scores 0 <= nth i scores 0)%Q) /\
    (forall j, (j < i)%nat -> (nth j scores 0 < nth i scores 0)%Q).
Proof.
  intros H. apply predict_returns in H.
  destruct H as (img & t & output & index & H1 & H2 & H3 & H4 & ->).
  apply argmax1_item_returns in H4. destruct H4 as (scores & i & -> & Hi & ->).
  apply argmax_row_spec in Hi. destruct Hi as (Hlt & Hmax & Hfirst).
  exists (unsqueeze0 t), scores, i.
  split; [now rewrite (model_input_of_transform lib file s img t H1 H2)|].
  split.
  - unfold call_model in H3.
    destruct (Module_call lib (model s) (unsqueeze0 t)) as [out m']. cbn.
    now inversion H3.
  - auto.
Qed.

Lemma predict_selects_first_maximum_witness :
  exists image scores i,
    fst (model_input Fixture.lib (Fixture.upload "s.png" "image/png" Fixture.strip)
           Fixture.start) = Return image /\
    fst (Module_call Fixture.lib (model Fixture.start) image) = Return [scores] /\
    class_response 1 = class_response (Z.of_nat i) /\
    (i < length scores)%nat /\
    (forall j, (j < length scores)%nat -> (nth j scores 0 <= nth i scores 0)%Q) /\
    (forall j, (j < i)%nat -> (nth j scores 0 < nth i scores 0)%Q).
Proof.
  apply (predict_selects_first_maximum Fixture.lib
           (Fixture.upload "s.png" "image/png" Fixture.strip)
           Fixture.start Fixture.start (class_response 1)).
  lazy. reflexivity.
Defined.

(** The scan itself, on a row with a tie: the first of the two maxima wins. *)
Example argmax_row_tie :
  argmax_row [1; 5; 3; 5; 2]%Q = Return 1%nat.
Proof. reflexivity. Qed.

(** ** C7: the model is loaded once and never changed *)

(** C7: the module body loads the pretrained weights once and puts the model
    in evaluation mode; after any sequence of requests the process is the one
    the module body left: one load, the same weights and buffers, evaluation
    mode still on; and one more call of [predict] leaves it so again. *)
Theorem model_loaded_once_and_unchanged
    (lib : Libraries) (requests : list UploadFile) (file : UploadFile) :
  serve lib requests (main lib) = main lib /\
  weight_loads (serve lib requests (main lib)) = 1%nat /\
  parameters (model (serve lib requests (main lib))) = pretrained_weights lib /\
  buffers (model (serve lib requests (main lib))) = pretrained_buffers lib /\
  training (model (serve lib requests (main lib))) = false /\
  snd (predict lib file (serve lib requests (main lib))) = main lib.
Proof.
  rewrite (serve_frame lib requests (main lib) (main_eval lib)).
  repeat split. apply predict_frame, main_eval.
Qed.

(** Evaluation mode is what keeps the buffers: on the same request a model
    left in training mode comes back changed. *)
Example training_mode_would_mutate :
  snd (predict Fixture.lib (Fixture.upload "s.png" "image/png" Fixture.strip)
         {| model := fst (models_resnet18 Fixture.lib true 0); weight_loads := 1 |})
  <> {| model := fst (models_resnet18 Fixture.lib true 0); weight_loads := 1 |}.
Proof. lazy. intros H. discriminate H. Qed.

(** ** C9: only the bytes count *)

(** C9: two requests with the same bytes and any declared file names and
    content types get the same outcome and leave the same process, from
    every state: the handler reads nothing of the upload but its bytes. *)
Theorem predict_ignores_declared_metadata
    (lib : Libraries) (data : bytes) (name1 name2 type1 type2 : string)
    (s : Process lib) :
  predict lib {| filename := name1; content_type := type1; file_bytes := data |} s =
  predict lib {| filename := name2; content_type := type2; file_bytes := data |} s /\
  post_predict lib {| filename := name1; content_type := type1; file_bytes := data |} s =
  post_predict lib {| filename := name2; content_type := type2; file_bytes := data |} s.
Proof.
  assert (H : predict lib {| filename := name1; content_type := type1; file_bytes := data |} s =
              predict lib {| filename := name2; content_type := type2; file_bytes := data |} s)
    by (apply predict_bytes_only; reflexivity).
  split; [exact H|]. unfold post_predict. now rewrite H.
Qed.

(** ** C10: images that are not three-band *)

(** C10: for a payload that decodes, [predict] fails whenever the image does
    not have exactly three bands (greyscale, palette, RGBA, CMYK, ...): the
    image is never converted, so [Normalize] refuses the tensor, the exception
    leaves the handler and the client gets the 500; a response is produced
    only for an RGB image. *)
Theorem predict_needs_three_bands
    (lib : Libraries) (file : UploadFile) (s : Process lib) (img : PILImage) :
  Image_open lib (file_bytes file) = Return img ->
  (getbands (mode img) <> 3%nat ->
   (exists e, predict lib file s = (Raise e, s)) /\
   post_predict lib file s = (internal_server_error, s)) /\
  (forall response s',
     predict lib file s = (Return response, s') -> mode img = ModeRGB).
Proof.
  intros Hopen. split.
  - intros Hb. destruct (transform_other_bands lib img Hb) as [e He].
    pose proof (predict_transform_raises lib file s img e Hopen He) as Hp.
    split; [now exists e|]. unfold post_predict. now rewrite Hp.
  - intros response s' H. apply predict_returns in H.
    destruct H as (img' & t & _ & _ & H1 & H2 & _).
    rewrite Hopen in H1. injection H1 as <-.
    apply three_bands. now apply transform_returns_three_bands with lib t.
Qed.

Lemma predict_needs_three_bands_witness :
  (exists e,
     predict Fixture.lib (Fixture.upload "grey.png" "image/png" Fixture.grey_pixel)
       Fixture.start = (Raise e, Fixture.start)) /\
  post_predict Fixture.lib (Fixture.upload "grey.png" "image/png" Fixture.grey_pixel)
    Fixture.start = (internal_server_error, Fixture.start).
Proof.
  refine (proj1 (predict_needs_three_bands Fixture.lib
                   (Fixture.upload "grey.png" "image/png" Fixture.grey_pixel)
                   Fixture.start Fixture.grey_image _) _).
  - reflexivity.
  - cbn. discriminate.
Defined.

(** ** C5: what a valid image gets *)

(** C5, as the code has it: a payload that decodes to a three-band image of
    positive size, served by a model that returns one row of [N > 0] scores
    for a 1 x 3 x 224 x 224 batch, gets status 200 with the body
    [{"predicted_class": index}] and [0 <= index < N]. *)
Theorem rgb_image_gets_class_index
    (lib : Libraries) (file : UploadFile) (s : Process lib) (img : PILImage) (N : nat) :
  Image_open lib (file_bytes file) = Return img ->
  1 <= width img -> 1 <= height img ->
  getbands (mode img) = 3%nat ->
  (forall image, shape4 1 3 224 224 image ->
     exists scores,
       fst (Module_call lib (model s) image) = Return [scores] /\ length scores = N) ->
  (0 < N)%nat ->
  exists index s',
    predict lib file s = (Return (class_response index), s') /\
    post_predict lib file s = (class_response index, s') /\
    status_code (class_response index) = 200 /\
    body (class_response index) = JSONBody [("predicted_class"%string, JInt index)] /\
    0 <= index < Z.of_nat N.
Proof.
  intros Hopen Hw Hh Hb Hmodel HN.
  destruct (transform_ok lib img Hw Hh Hb)
    as (resized & top & left & t & _ & _ & _ & _ & _ & _ & _ & Ht & Hshape & _).
  destruct (Hmodel (unsqueeze0 t)) as (scores & Hcall & Hlen).
  { split; [reflexivity|]. now constructor. }
  destruct (argmax_row_nonempty scores) as [i Hi].
  { intros ->. cbn in Hlen. lia. }
  pose proof (argmax_row_spec scores i Hi) as (Hlt & _).
  assert (Hp : exists s', predict lib file s = (Return (class_response (Z.of_nat i)), s')).
  { rewrite (predict_inference lib file s img t Hopen Ht).
    unfold call_model.
    destruct (Module_call lib (model s) (unsqueeze0 t)) as [out m'].
    cbn in Hcall. subst out. cbn. rewrite Hi. cbn. eexists; reflexivity. }
  destruct Hp as [s' Hp].
  exists (Z.of_nat i), s'. split; [exact Hp|]. split.
  - unfold post_predict. now rewrite Hp.
  - repeat split; lia.
Qed.

Lemma corner_scores_row (image : Tensor4) :
  shape4 1 3 224 224 image ->
  exists scores,
    fst (Module_call Fixture.lib (model Fixture.start) image) = Return [scores] /\
    length scores = 3%nat.
Proof.
  intros [Hlen Hall].
  destruct image as [|t [|t' rest]]; try discriminate Hlen.
  inversion Hall as [|? ? [Ht _] _]; subst.
  assert (Hf : Fixture.corner_scores [t] =
               Return [map (fun channel => nth 0 (nth 0 channel []) 0%Q) t]).
  { unfold Fixture.corner_scores. cbn [forallb map]. rewrite Ht. reflexivity. }
  exists (map (fun channel => nth 0 (nth 0 channel []) 0%Q) t).
  split; [|now rewrite length_map].
  unfold Module_call. cbn. now rewrite Hf.
Qed.

Lemma rgb_image_gets_class_index_witness :
  exists index s',
    predict Fixture.lib (Fixture.upload "s.jpg" "image/jpeg" Fixture.strip) Fixture.start
    = (Return (class_response index), s') /\
    post_predict Fixture.lib (Fixture.upload "s.jpg" "image/jpeg" Fixture.strip)
      Fixture.start = (class_response index, s') /\
    status_code (class_response index) = 200 /\
    body (class_response index) = JSONBody [("predicted_class"%string, JInt index)] /\
    0 <= index < Z.of_nat 3.
Proof.
  apply (rgb_image_gets_class_index Fixture.lib
           (Fixture.upload "s.jpg" "image/jpeg" Fixture.strip)
           Fixture.start Fixture.strip_image 3).
  - reflexivity.
  - cbn; lia.
  - cbn; lia.
  - reflexivity.
  - exact corner_scores_row.
  - lia.
Defined.

(** C5 fails on a valid image with an alpha channel: it decodes, and the
    request ends in the framework's 500 instead of a class index. *)
Lemma rgba_image_gets_no_class_index :
  Image_open Fixture.lib Fixture.glass_pixel = Return Fixture.glass_image /\
  fst (predict Fixture.lib (Fixture.upload "glass.png" "image/png" Fixture.glass_pixel)
         Fixture.start) = Raise RuntimeError /\
  status_code
    (fst (post_predict Fixture.lib
            (Fixture.upload "glass.png" "image/png" Fixture.glass_pixel) Fixture.start))
  = 500.
Proof.
  split; [reflexivity|]. split; lazy; reflexivity.
Qed.

(** ** C6: the tensor handed to the model *)

(** C6: for a payload that decodes, [predict] either stops in [transform]
    with its exception, or calls the model, [model(image)], on a tensor of
    shape 1 x 3 x 224 x 224 whose entry for channel [c], row [y], column [x]
    is [(p / 255 - mean[c]) / std[c]] computed in float32, where [p] is the
    sample of the resized image at that place of the central 224 x 224 box
    and [mean], [std] are the constants of the module; what follows in the
    handler is the arg-max of what the model returns for this tensor. *)
Theorem predict_passes_normalized_tensor
    (lib : Libraries) (file : UploadFile) (s : Process lib) (img : PILImage) :
  Image_open lib (file_bytes file) = Return img ->
  0 <= width img -> 0 <= height img ->
  (exists e, transform lib img = Raise e /\ predict lib file s = (Raise e, s)) \/
  (exists image resized top left,
     model_input lib file s = (Return image, s) /\
     predict lib file s =
       match call_model lib image s with
       | (Return output, s') =>
           match result_bind (argmax1 output) item with
           | Return index => (Return (class_response index), s')
           | Raise e => (Raise e, s')
           end
       | (Raise e, s') => (Raise e, s')
       end /\
     shape4 1 3 224 224 image /\
     Resize lib 256 img = Return resized /\
     0 <= top /\ top + 224 <= height resized /\
     0 <= left /\ left + 224 <= width resized /\
     forall c y x, (c < 3)%nat -> (y < 224)%nat -> (x < 224)%nat ->
       entry4 image 0 c y x =
       float32_div lib
         (float32_sub lib
            (float32_div lib
               (inject_Z (getpixel resized (Z.of_nat x + left) (Z.of_nat y + top) c))
               255%Q)
            (float32 lib (nth c [0.485; 0.456; 0.406]%Q 0%Q)))
         (float32 lib (nth c [0.229; 0.224; 0.225]%Q 0%Q))).
Proof.
  intros Hopen Hw Hh.
  destruct (transform lib img) as [t|e] eqn:Ht.
  2:{ left. exists e. split; [reflexivity|].
      now apply predict_transform_raises with img. }
  right.
  destruct (transform_positive lib img t Hw Hh Ht) as [Hw1 Hh1].
  pose proof (transform_returns_three_bands lib img t Ht) as Hb.
  destruct (transform_ok lib img Hw1 Hh1 Hb)
    as (resized & top & left & t0 & HR & _ & _ & Ht0 & Ht1 & Hl0 & Hl1 & Ht' & Hshape & Hentry).
  rewrite Ht in Ht'. injection Ht' as <-.
  exists (unsqueeze0 t), resized, top, left.
  split; [now apply model_input_of_transform with img|].
  split; [now apply predict_inference with img|].
  split; [split; [reflexivity|now constructor]|].
  split; [exact HR|]. split; [exact Ht0|]. split; [exact Ht1|].
  split; [exact Hl0|]. split; [exact Hl1|].
  intros c y x Hc Hy Hx. unfold entry4, unsqueeze0. cbn [nth].
  now apply Hentry.
Qed.

Lemma predict_passes_normalized_tensor_witness :
  exists image,
    shape4 1 3 224 224 image /\
    predict Fixture.lib (Fixture.upload "s.jpg" "image/jpeg" Fixture.strip) Fixture.start =
    match call_model Fixture.lib image Fixture.start with
    | (Return output, s') =>
        match result_bind (argmax1 output) item with
        | Return index => (Return (class_response index), s')
        | Raise e => (Raise e, s')
        end
    | (Raise e, s') => (Raise e, s')
    end.
Proof.
  destruct (transform_ok Fixture.lib Fixture.strip_image
              ltac:(cbn; lia) ltac:(cbn; lia) eq_refl)
    as (_ & _ & _ & t & _ & _ & _ & _ & _ & _ & _ & Ht & _).
  destruct (predict_passes_normalized_tensor Fixture.lib
              (Fixture.upload "s.jpg" "image/jpeg" Fixture.strip)
              Fixture.start Fixture.strip_image eq_refl
              ltac:(cbn; lia) ltac:(cbn; lia))
    as [(e & He & _)|(image & _ & _ & _ & _ & Hp & Hshape & _)].
  - rewrite Ht in He. discriminate He.
  - exists image. split; [exact Hshape|exact Hp].
Defined.

(** * Further properties of the service *)

(** ** What [predict] can change *)




(** ** What the client can get *)

(** X2: whatever the upload and the process state, the answer to
    [POST /predict/] is either status 200 with the body
    [{"predicted_class": i}] for a non-negative integer [i], or the
    framework's plain-text 500; the handler never produces a 4xx. *)
Theorem post_predict_answers
    (lib : Libraries) (file : UploadFile) (s : Process lib) :
  ((status_code (fst (post_predict lib file s)) = 200 /\
    exists i, 0 <= i /\
      body (fst (post_predict lib file s)) = JSONBody [("predicted_class"%string, JInt i)])
   \/ fst (post_predict lib file s) = internal_server_error) /\
  is_4xx (fst (post_predict lib file s)) = false.
Proof.
  unfold post_predict.
  destruct (predict lib file s) as [[response|e] s'] eqn:Hp.
  - apply predict_returns in Hp.
    destruct Hp as (img & t & output & index & _ & _ & _ & Hi & ->).
    apply argmax1_item_returns in Hi. destruct Hi as (scores & i & _ & _ & ->).
    cbn. split; [|reflexivity]. left. split; [reflexivity|].
    exists (Z.of_nat i). split; [lia|reflexivity].
  - cbn. split; [now right|reflexivity].
Qed.

(** ** When [predict] answers *)

(** X4: [predict] returns a response exactly when the payload decodes, the
    image passes [transform], and the model returns for the batch of this one
    image a score matrix of exactly one row that is not empty.  In every
    other case (several rows, no row, an empty row, an exception of the
    model) an exception leaves the handler. *)
Theorem predict_returns_exactly
    (lib : Libraries) (file : UploadFile) (s : Process lib) :
  (exists response s', predict lib file s = (Return response, s')) <->
  (exists img t scores,
     Image_open lib (file_bytes file) = Return img /\
     transform lib img = Return t /\
     fst (Module_call lib (model s) (unsqueeze0 t)) = Return [scores] /\
     scores <> []).
Proof.
  split.
  - intros (response & s' & H). apply predict_returns in H.
    destruct H as (img & t & output & index & H1 & H2 & H3 & H4 & _).
    apply argmax1_item_returns in H4. destruct H4 as (scores & i & -> & Hi & _).
    exists img, t, scores. repeat split; try assumption.
    + unfold call_model in H3.
      destruct (Module_call lib (model s) (unsqueeze0 t)) as [out m']. cbn.
      now inversion H3.
    + intros ->. discriminate Hi.
  - intros (img & t & scores & H1 & H2 & H3 & Hne).
    rewrite (predict_inference lib file s img t H1 H2). unfold call_model.
    destruct (Module_call lib (model s) (unsqueeze0 t)) as [out m'].
    cbn in H3. subst out.
    destruct (argmax_row_nonempty scores Hne) as [i Hi].
    cbn. rewrite Hi. cbn. eexists _, _. reflexivity.
Qed.

(** ** Where the crop lies *)

Lemma round_half_centred (d : Z) : -1 <= 2 * round_half d - d <= 1.
Proof.
  unfold round_half.
  pose proof (Z.div_mod d 2 ltac:(lia)) as Hdm.
  pose proof (Z.mod_pos_bound d 2 ltac:(lia)) as Hm.
  destruct (d mod 2 =? 0) eqn:E.
  - apply Z.eqb_eq in E. lia.
  - apply Z.eqb_neq in E. destruct (Z.even (d / 2)); lia.
Qed.

Lemma center_crop_offsets (img : PILImage) (size : Z) :
  size <= width img -> size <= height img ->
  center_crop img size size =
  crop img (round_half (height img - size)) (round_half (width img - size)) size size.
Proof.
  intros Hw Hh. unfold center_crop. now rewrite !gtb_false by assumption.
Qed.

(** X5: on an image of positive size, [Resize(256)] then [CenterCrop(224)]
    resizes the shorter side to 256 and the longer one to the floor of
    256 * long / short, and cuts the 224 x 224 box in the middle: the margin
    along the shorter side is 16 on both ends, and along the longer side the
    two margins differ by at most one pixel. *)
Theorem transform_crop_is_centred (lib : Libraries) (img : PILImage) :
  1 <= width img -> 1 <= height img ->
  exists resized top left,
    Resize lib 256 img = Return resized /\
    CenterCrop 224 resized = Return (crop resized top left 224 224) /\
    width resized = (if width img <=? height img then 256
                     else 256 * width img / height img) /\
    height resized = (if width img <=? height img then 256 * height img / width img
                      else 256) /\
    (width img <= height img -> left = 16) /\
    (height img <= width img -> top = 16) /\
    -1 <= left - (width resized - 224 - left) <= 1 /\
    -1 <= top - (height resized - 224 - top) <= 1.
Proof.
  intros Hw Hh.
  destruct (Resize_ok lib 256 img Hw Hh ltac:(lia)) as (resized & HR & _ & Hrw & Hrh & _).
  assert (Hsize : width resized = (if width img <=? height img then 256
                                   else 256 * width img / height img) /\
                  height resized = (if width img <=? height img
                                    then 256 * height img / width img else 256)).
  { revert HR. unfold Resize, compute_resized_output_size.
    destruct (width img <=? height img) eqn:E.
    - apply Z.leb_le in E.
      replace (width img =? 0) with false by (symmetry; apply Z.eqb_neq; lia).
      cbn. intros [= <-]. cbn. auto.
    - apply Z.leb_gt in E.
      replace (height img =? 0) with false by (symmetry; apply Z.eqb_neq; lia).
      cbn. intros [= <-]. cbn. auto. }
  destruct Hsize as [HW HH].
  exists resized, (round_half (height resized - 224)), (round_half (width resized - 224)).
  split; [exact HR|]. split.
  { unfold CenterCrop. now rewrite center_crop_offsets by lia. }
  split; [exact HW|]. split; [exact HH|].
  pose proof (round_half_centred (width resized - 224)).
  pose proof (round_half_centred (height resized - 224)).
  split; [|split; [|lia]].
  - intros Hle. apply Z.leb_le in Hle. rewrite Hle in HW. rewrite HW. reflexivity.
  - intros Hle. destruct (width img <=? height img) eqn:E.
    + apply Z.leb_le in E. assert (Heq : height img = width img) by lia.
      rewrite HH, Heq. rewrite Z.div_mul by lia. reflexivity.
    + rewrite HH. reflexivity.
Qed.

Lemma transform_crop_is_centred_witness :
  exists resized top left,
    Resize Fixture.lib 256 Fixture.strip_image = Return resized /\
    CenterCrop 224 resized = Return (crop resized top left 224 224) /\
    width resized = 768 /\ height resized = 256 /\ top = 16 /\ left = 272.
Proof.
  destruct (transform_crop_is_centred Fixture.lib Fixture.strip_image
              ltac:(cbn; lia) ltac:(cbn; lia))
    as (resized & top & left & HR & HC & HW & HH & _ & Htop & Hl & _).
  exists resized, top, left. cbn in HW, HH.
  pose proof (Htop ltac:(cbn; lia)).
  repeat split; try assumption; lia.
Defined.

(** ** [argmax], completely *)

Lemma first_maximum_unique (scores : list Q) (i j : nat) :
  first_maximum scores i -> first_maximum scores j -> i = j.
Proof.
  intros (Hi & Hmaxi & Hfirsti) (Hj & Hmaxj & Hfirstj).
  destruct (Nat.lt_trichotomy i j) as [Hlt|[Heq|Hgt]]; [|exact Heq|].
  - exfalso. apply (Qlt_not_le _ _ (Hfirstj i Hlt)). now apply Hmaxi.
  - exfalso. apply (Qlt_not_le _ _ (Hfirsti j Hgt)). now apply Hmaxj.
Qed.

(** X7: the arg-max of a row is defined exactly for a row that is not empty
    (an empty row raises [IndexError]), and it is the one index whose score
    no score exceeds and every earlier score stays strictly below: the first
    of the maxima, also among equal scores. *)
Theorem argmax_row_characterization (scores : list Q) (i : nat) :
  (argmax_row scores = Return i <-> first_maximum scores i) /\
  (argmax_row scores = Raise IndexError <-> scores = []) /\
  (forall e, argmax_row scores = Raise e -> e = IndexError).
Proof.
  split; [split|split; [split|]].
  - apply argmax_row_spec.
  - intros Hi.
    assert (Hne : scores <> []) by (intros ->; destruct Hi as [H _]; cbn in H; lia).
    destruct (argmax_row_nonempty scores Hne) as [j Hj].
    rewrite Hj. f_equal.
    apply (first_maximum_unique scores j i); [now apply argmax_row_spec|exact Hi].
  - destruct scores; [reflexivity|discriminate].
  - now intros ->.
  - destruct scores; cbn; [now intros e [= <-]|discriminate].
Qed.

(** ** The test cell against the server *)

(** X8: the test cell prints the dictionary [{'predicted_class': i}] exactly
    when the handler returns class [i] for the bytes of the file, under the
    declared name and content type or any other; when an exception leaves the
    handler, the cell does not print an error body: [response.json()] raises
    on the plain-text 500.  In both cases the server is left as [predict]
    leaves it. *)
Theorem test_cell_prints_class_or_raises
    (lib : Libraries) (disk : string -> option bytes) (f : bytes)
    (name type : string) (s : Process lib) :
  disk file_path = Some f ->
  (forall response s',
     predict lib {| filename := name; content_type := type; file_bytes := f |} s
     = (Return response, s') ->
     exists i, response = class_response i /\
       test_cell lib disk s = (Return [("predicted_class"%string, JInt i)], s')) /\
  (forall e s',
     predict lib {| filename := name; content_type := type; file_bytes := f |} s
     = (Raise e, s') ->
     test_cell lib disk s = (Raise ValueError, s')).
Proof.
  intros Hdisk.
  assert (Hp : predict lib {| filename := name; content_type := type; file_bytes := f |} s =
               predict lib {| filename := file_path; content_type := "image/jpeg";
                              file_bytes := f |} s)
    by (apply predict_bytes_only; reflexivity).
  unfold test_cell, post_predict. rewrite Hdisk, <- Hp. split.
  - intros response s' H. rewrite H.
    apply predict_returns in H.
    destruct H as (_ & _ & _ & index & _ & _ & _ & _ & ->).
    exists index. split; reflexivity.
  - intros e s' H. now rewrite H.
Qed.

Lemma test_cell_prints_class_or_raises_witness :
  test_cell Fixture.lib (fun _ => Some Fixture.grey_pixel) Fixture.start
  = (Raise ValueError, Fixture.start).
Proof.
  refine (proj2 (test_cell_prints_class_or_raises Fixture.lib
                   (fun _ => Some Fixture.grey_pixel) Fixture.grey_pixel
                   "grey.png" "image/png" Fixture.start _)
            RuntimeError Fixture.start _).
  - reflexivity.
  - lazy. reflexivity.
Defined.

(** A missing file ends the cell before any request is sent. *)
Example test_cell_missing_file :
  test_cell Fixture.lib (fun _ => None) Fixture.start = (Raise OSError, Fixture.start).
Proof. reflexivity. Qed.
